(** * futon: a thin CouchDB client (src/futon/futon.py)

    The module has two classes.  [Client] holds the connection parameters
    and a lazily filled list of database names; [Database] holds the same
    parameters plus a database name and turns each method call into one
    HTTP request made through the [requests] library.

    The embedding follows the Python text method by method:
    - Python values that travel through the code (selectors, documents,
      sort specifications, decoded response bodies) are [pyval];
    - a dict is a [gmap string pyval], built the way the code builds it,
      by successive key assignments;
    - the [requests] calls are an effect: a state-and-exception monad over
      a [World] that records every request handed to the transport and
      every line printed; the remote server is an oracle that answers a
      request given the requests made before it;
    - [try ... except RequestException as e: print(...); raise] is the
      combinator [try_except_RequestException]. *)

From Stdlib Require Import ZArith Ascii.
From stdpp Require Import gmap strings list.

Open Scope Z_scope.

(** ** Python values *)

(** None, bool, int, str, list and dict with string keys: what json
    encoding and decoding exchange with the server.  (Floats do not take
    part in any decision the module makes and are left out.) *)
#[warnings="-register-all"]
Inductive pyval : Type :=
  | PNone
  | PBool (b : bool)
  | PInt (n : Z)
  | PStr (s : string)
  | PList (l : list pyval)
  | PDict (d : gmap string pyval).

(** Truth value testing, as done by [if x:] and by [and]. *)
Definition truthy (v : pyval) : bool :=
  match v with
  | PNone => false
  | PBool b => b
  | PInt n => negb (Z.eqb n 0)
  | PStr s => negb (String.eqb s "")
  | PList l => match l with [] => false | _ :: _ => true end
  | PDict d => negb (bool_decide (d = ∅))
  end.

(** [username], [password] and [ca_cert_path] are optional strings;
    [None] is Python's None. *)
Definition truthy_str (o : option string) : bool :=
  match o with
  | None => false
  | Some s => negb (String.eqb s "")
  end.

Definition isinstance_str (v : pyval) : bool :=
  match v with PStr _ => true | _ => false end.

Definition isinstance_list (v : pyval) : bool :=
  match v with PList _ => true | _ => false end.

(** ** str.rstrip *)

Fixpoint char_in (c : ascii) (chars : string) : bool :=
  match chars with
  | EmptyString => false
  | String c' rest => if Ascii.eqb c c' then true else char_in c rest
  end.

(** [s.rstrip(chars)]: [s] without its longest suffix made of characters
    of [chars].  Strings are byte strings here; the only character ever
    stripped is "/", a single byte that occurs in no multi-byte UTF-8
    sequence, so stripping bytes and stripping code points agree. *)
Fixpoint rstrip (chars : string) (s : string) : string :=
  match s with
  | EmptyString => EmptyString
  | String c s' =>
      match rstrip chars s' with
      | EmptyString => if char_in c chars then EmptyString else String c EmptyString
      | r => String c r
      end
  end.

(** ** The requests library *)

Inductive Method : Type := GET | HEAD | PUT | POST.

(** What one call [requests.<method>(url, json=..., auth=..., verify=...)]
    hands to the transport; [json] is the JSON body, [None] when the
    request goes out without one. *)
Record Request : Type := mkRequest {
  method : Method;
  url : string;
  json : option pyval;
  auth : option (option string * option string);
  verify : option string
}.

(** A response as far as the module looks at it: [status_code], and what
    [response.json()] yields ([None] when the body is not JSON). *)
Record Response : Type := mkResponse {
  status_code : Z;
  body : option pyval
}.

(** The transport either produces a response or fails before one exists
    (DNS, connection, TLS, timeout). *)
Inductive Reply : Type :=
  | Responded (r : Response)
  | Failed (detail : string).

(** [HTTPError], the transport failures and (since requests 2.27)
    [JSONDecodeError] derive from [requests.exceptions.RequestException];
    [AttributeError] does not. *)
Inductive exn : Type :=
  | HTTPError (status : Z)
  | TransportError (detail : string)
  | JSONDecodeError
  | AttributeError.

Definition is_RequestException (e : exn) : bool :=
  match e with
  | HTTPError _ | TransportError _ | JSONDecodeError => true
  | AttributeError => false
  end.

(** The surroundings of a run: the server, which answers a request
    knowing the requests made before it, and [str(e)] for an exception. *)
Class Env : Type := {
  server : list Request → Request → Reply;
  exn_str : exn → string
}.

(** Everything the module does to the outside: requests handed to the
    transport and lines printed, oldest first. *)
Record World : Type := mkWorld {
  sent : list Request;
  stdout : list string
}.

(** ** State and exceptions *)

Inductive outcome (A : Type) : Type :=
  | Return (a : A)
  | Raise (e : exn).
Arguments Return {A} a.
Arguments Raise {A} e.

Definition M (S A : Type) : Type := S → outcome A * S.

Global Instance M_ret {S} : MRet (M S) := λ A a s, (Return a, s).

Global Instance M_bind {S} : MBind (M S) :=
  λ A B k m s, match m s with
               | (Return a, s') => k a s'
               | (Raise e, s') => (Raise e, s')
               end.

Definition raise {S A} (e : exn) : M S A := λ s, (Raise e, s).

(** [try: body except requests.exceptions.RequestException as e: handler]:
    other exceptions pass through untouched. *)
Definition try_except_RequestException {S A}
    (body : M S A) (handler : exn → M S A) : M S A :=
  λ s, match body s with
       | (Return a, s') => (Return a, s')
       | (Raise e, s') =>
           if is_RequestException e then handler e s' else (Raise e, s')
       end.

Definition print (line : string) : M World unit :=
  λ w, (Return (), {| sent := sent w; stdout := stdout w ++ [line] |}).

(** The body made of the argument [json=v]: requests encodes [v] unless
    it is None, which is the call without [json] and sends no body. *)
Definition json_body (v : pyval) : option pyval :=
  match v with
  | PNone => None
  | _ => Some v
  end.

Section requests.
Context `{Env}.

(** One call to the transport: the request is recorded, then answered. *)
Definition requests_request (req : Request) : M World Response :=
  λ w, let w' := {| sent := sent w ++ [req]; stdout := stdout w |} in
       match server (sent w) req with
       | Responded r => (Return r, w')
       | Failed detail => (Raise (TransportError detail), w')
       end.

Definition requests_head url auth verify :=
  requests_request (mkRequest HEAD url None auth verify).
Definition requests_put url auth verify :=
  requests_request (mkRequest PUT url None auth verify).
Definition requests_get url auth verify :=
  requests_request (mkRequest GET url None auth verify).
Definition requests_post url json auth verify :=
  requests_request (mkRequest POST url (json_body json) auth verify).
End requests.

(** [Response.raise_for_status]: raises for a client error (400..499) or
    a server error (500..599) and does nothing otherwise. *)
Definition raise_for_status {S} (response : Response) : M S unit :=
  if (400 <=? status_code response) && (status_code response <? 500) then
    raise (HTTPError (status_code response))
  else if (500 <=? status_code response) && (status_code response <? 600) then
    raise (HTTPError (status_code response))
  else mret ().

(** [Response.json]. *)
Definition response_json {S} (response : Response) : M S pyval :=
  match body response with
  | Some v => mret v
  | None => raise JSONDecodeError
  end.

(** [data.get(key, default)]: a dict method; the other JSON values have
    no attribute [get]. *)
Definition py_get {S} (data : pyval) (key : string) (default : pyval) : M S pyval :=
  match data with
  | PDict d => mret (match d !! key with Some v => v | None => default end)
  | _ => raise AttributeError
  end.

(** ** class Database *)

Module Database.

Record t : Type := mk {
  couchdb_url : string;
  username : option string;
  password : option string;
  ca_cert_path : option string;
  db_name : string
}.

Definition __init__ (couchdb_url : string) (username password ca_cert_path : option string)
    (db_name : string) : t :=
  {| couchdb_url := rstrip "/" couchdb_url;
     username := username;
     password := password;
     ca_cert_path := ca_cert_path;
     db_name := db_name |}.

(** [(self.username, self.password) if self.username and self.password else None] *)
Definition auth_of (self : t) : option (option string * option string) :=
  if truthy_str (username self) && truthy_str (password self)
  then Some (username self, password self)
  else None.

(** The statements of [find] that build [payload], in their order. *)
Definition find_payload (selector columns sort descending limit : pyval)
    : gmap string pyval :=
  let selector := if truthy selector then selector else PDict ∅ in
  let payload : gmap string pyval := {[ "selector" := selector ]} in
  let payload :=
    if truthy columns then <["fields" := columns]> payload else payload in
  let payload :=
    if truthy sort then
      match sort with
      | PStr field =>
          <["sort" :=
              PList [PDict {[ field := PStr (if truthy descending then "desc" else "asc") ]}]
           ]> payload
      | PList _ => <["sort" := sort]> payload
      | _ => payload
      end
    else payload in
  let payload :=
    if truthy limit then <["limit" := limit]> payload else payload in
  payload.

Section methods.
Context `{Env}.

Definition exists_ (self : t) : M World pyval :=
  let db_url := couchdb_url self +:+ "/" +:+ db_name self in
  let auth := auth_of self in
  try_except_RequestException
    (response ← requests_head db_url auth (ca_cert_path self);
     if status_code response =? 200 then mret (PBool true)
     else if status_code response =? 404 then mret (PBool false)
     else (raise_for_status response;; mret PNone))
    (λ e, print ("Error checking existence of database '" +:+ db_name self
                 +:+ "': " +:+ exn_str e);;
          raise e).

Definition create (self : t) : M World pyval :=
  existing ← exists_ self;
  if truthy existing then mret (PBool false)
  else
    let db_url := couchdb_url self +:+ "/" +:+ db_name self in
    let auth := auth_of self in
    try_except_RequestException
      (response ← requests_put db_url auth (ca_cert_path self);
       raise_for_status response;;
       print ("Database '" +:+ db_name self +:+ "' created successfully.");;
       mret (PBool true))
      (λ e, print ("Error creating database '" +:+ db_name self
                   +:+ "': " +:+ exn_str e);;
            raise e).

Definition find (self : t) (selector columns sort descending limit : pyval)
    : M World pyval :=
  let db_url := couchdb_url self +:+ "/" +:+ db_name self +:+ "/_find" in
  let auth := auth_of self in
  let payload := find_payload selector columns sort descending limit in
  try_except_RequestException
    (response ← requests_post db_url (PDict payload) auth (ca_cert_path self);
     raise_for_status response;;
     data ← response_json response;
     py_get data "docs" (PList []))
    (λ e, print ("Error fetching data from CouchDB: " +:+ exn_str e);;
          raise e).

(** [find()] with every parameter at its default. *)
Definition find_default (self : t) : M World pyval :=
  find self PNone PNone PNone (PBool false) PNone.

Definition insert_many (self : t) (records : pyval) : M World pyval :=
  let db_url := couchdb_url self +:+ "/" +:+ db_name self +:+ "/_bulk_docs" in
  let auth := auth_of self in
  let payload : gmap string pyval := {[ "docs" := records ]} in
  try_except_RequestException
    (response ← requests_post db_url (PDict payload) auth (ca_cert_path self);
     raise_for_status response;;
     response_json response)
    (λ e, print ("Error inserting records into CouchDB: " +:+ exn_str e);;
          raise e).

Definition insert_one (self : t) (document : pyval) : M World pyval :=
  let db_url := couchdb_url self +:+ "/" +:+ db_name self in
  let auth := auth_of self in
  try_except_RequestException
    (response ← requests_post db_url document auth (ca_cert_path self);
     raise_for_status response;;
     response_json response)
    (λ e, print ("Error inserting document into CouchDB: " +:+ exn_str e);;
          raise e).

End methods.
End Database.

(** ** class Client *)

Module Client.

(** [_databases] is the one attribute assigned after construction. *)
Record t : Type := mk {
  couchdb_url : string;
  username : option string;
  password : option string;
  ca_cert_path : option string;
  _databases : pyval
}.

Definition __init__ (couchdb_url : string) (username password ca_cert_path : option string)
    : t :=
  {| couchdb_url := rstrip "/" couchdb_url;
     username := username;
     password := password;
     ca_cert_path := ca_cert_path;
     _databases := PNone |}.

Definition __getitem__ (self : t) (db_name : string) : Database.t :=
  Database.__init__ (couchdb_url self) (username self) (password self)
    (ca_cert_path self) db_name.

Definition auth_of (self : t) : option (option string * option string) :=
  if truthy_str (username self) && truthy_str (password self)
  then Some (username self, password self)
  else None.

(** The property runs on the object and the world together. *)
Definition get_self : M (t * World) t := λ s, (Return s.1, s).

(** [self._databases = v] *)
Definition set_databases (v : pyval) : M (t * World) unit :=
  λ s, (Return (),
        ({| couchdb_url := couchdb_url s.1;
            username := username s.1;
            password := password s.1;
            ca_cert_path := ca_cert_path s.1;
            _databases := v |}, s.2)).

Definition in_world {A} (m : M World A) : M (t * World) A :=
  λ s, let '(r, w) := m s.2 in (r, (s.1, w)).

Section methods.
Context `{Env}.

Definition databases : M (t * World) pyval :=
  self ← get_self;
  if truthy (_databases self) then mret (_databases self)
  else
    let db_url := couchdb_url self +:+ "/_all_dbs" in
    let auth := auth_of self in
    try_except_RequestException
      (response ← in_world (requests_get db_url auth (ca_cert_path self));
       raise_for_status response;;
       names ← response_json response;
       set_databases names;;
       self ← get_self;
       mret (_databases self))
      (λ e, in_world (print ("Error fetching databases: " +:+ exn_str e));;
            raise e).

End methods.
End Client.

(** ** Environments and vocabulary for the statements *)

Definition exn_name (e : exn) : string :=
  match e with
  | HTTPError _ => "HTTPError"
  | TransportError detail => detail
  | JSONDecodeError => "JSONDecodeError"
  | AttributeError => "AttributeError"
  end.

(** A server that answers by the method of the request alone. *)
Definition by_method (on_head on_put on_get on_post : Reply) : Env :=
  {| server := λ _ req,
       match method req with
       | HEAD => on_head
       | PUT => on_put
       | GET => on_get
       | POST => on_post
       end;
     exn_str := exn_name |}.

(** A server with one answer to everything. *)
Definition answering (status : Z) (content : option pyval) : Env :=
  let r := Responded (mkResponse status content) in by_method r r r r.

(** Nothing sent, nothing printed. *)
Definition fresh : World := mkWorld [] [].

(** [n] slashes. *)
Fixpoint slashes (n : nat) : string :=
  match n with
  | O => EmptyString
  | S n' => String "/"%char (slashes n')
  end.

Definition has_trailing_slash (s : string) : Prop := ∃ s', s = s' +:+ "/".

(** Both credentials are strings and neither is empty. *)
Definition credentials_given (username password : option string) : Prop :=
  ∃ u p, username = Some u ∧ password = Some p ∧ u ≠ "" ∧ p ≠ "".

(** Request [req] carries basic-auth exactly when both credentials are
    given, and then it carries those two. *)
Definition auth_iff_credentials (username password : option string) (req : Request) : Prop :=
  (is_Some (auth req) ↔ credentials_given username password)
  ∧ (∀ a, auth req = Some a → a = (username, password)).

(** The JSON body of the request made last. *)
Definition last_json (w : World) : option pyval :=
  last (sent w) ≫= json.

(** Objects for the worked cases. *)
Definition example_client : Client.t :=
  Client.__init__ "http://localhost:5984/" (Some "admin") (Some "secret") None.

Definition example_db : Database.t :=
  Client.__getitem__ example_client "futon".

Definition example_records : pyval :=
  PList [PDict {[ "a" := PInt 1 ]}; PDict {[ "b" := PInt 2 ]}].

(** A bulk answer in which the second document was refused. *)
Definition example_bulk_answer : pyval :=
  PList [PDict {[ "ok" := PBool true; "id" := PStr "1" ]};
         PDict {[ "id" := PStr "2"; "error" := PStr "conflict" ]}].

(** [n] more reads of the [databases] property, one after the other. *)
Fixpoint access_again `{Env} (n : nat) (s : Client.t * World) : Client.t * World :=
  match n with
  | O => s
  | S n' => access_again n' (Client.databases s).2
  end.

(** The world after a [try] block that raised [e] in world [w] and whose
    handler printed [line]. *)
Definition reported {A} (line : string) (e : exn) (w : World) : outcome A * World :=
  (Raise e, {| sent := sent w; stdout := stdout w ++ [line] |}).

(** [self] with [_databases] assigned. *)
Definition remembering (self : Client.t) (names : pyval) : Client.t :=
  {| Client.couchdb_url := Client.couchdb_url self;
     Client.username := Client.username self;
     Client.password := Client.password self;
     Client.ca_cert_path := Client.ca_cert_path self;
     Client._databases := names |}.

(** Opens the monadic plumbing of a method body. *)
Ltac py_unfold :=
  unfold try_except_RequestException, requests_head, requests_put,
    requests_get, requests_post, requests_request, response_json, py_get,
    print, raise, mbind, M_bind, mret, M_ret;
  cbn.

(** ** Equations of the library model *)

Lemma truthy_str_true (o : option string) :
  truthy_str o = true ↔ ∃ s, o = Some s ∧ s ≠ "".
Proof.
  destruct o as [s|]; simpl.
  - rewrite negb_true_iff. split.
    + intros Hs. exists s. split; [done|]. intros ->. discriminate.
    + intros (s' & [= <-] & Hne). apply String.eqb_neq. done.
  - split; [done|]. intros (s & Hs & _). discriminate.
Qed.

Lemma raise_for_status_error {S} (response : Response) (s : S) :
  400 ≤ status_code response < 600 →
  raise_for_status response s = (Raise (HTTPError (status_code response)), s).
Proof.
  intros Hs. unfold raise_for_status.
  destruct (400 <=? status_code response) eqn:Ha; [|lia].
  destruct (status_code response <? 500) eqn:Hb; simpl; [done|].
  destruct (500 <=? status_code response) eqn:Hc; [|lia].
  destruct (status_code response <? 600) eqn:Hd; [done|lia].
Qed.

Lemma raise_for_status_pass {S} (response : Response) (s : S) :
  ¬ (400 ≤ status_code response < 600) →
  raise_for_status response s = (Return (), s).
Proof.
  intros Hs. unfold raise_for_status.
  destruct (400 <=? status_code response) eqn:Ha;
    destruct (status_code response <? 500) eqn:Hb; simpl; try lia;
    destruct (500 <=? status_code response) eqn:Hc;
    destruct (status_code response <? 600) eqn:Hd; simpl; try lia; done.
Qed.


(** ** What each method does, by the server's reply *)


Section replies.
Context `{Env}.

Lemma exists_eq (self : Database.t) (w : World) :
  Database.exists_ self w =
    let req := mkRequest HEAD
                 (Database.couchdb_url self +:+ "/" +:+ Database.db_name self)
                 None (Database.auth_of self) (Database.ca_cert_path self) in
    let w1 := {| sent := sent w ++ [req]; stdout := stdout w |} in
    let line e := "Error checking existence of database '" +:+ Database.db_name self
                  +:+ "': " +:+ exn_str e in
    match server (sent w) req with
    | Failed detail => reported (line (TransportError detail)) (TransportError detail) w1
    | Responded r =>
        if status_code r =? 200 then (Return (PBool true), w1)
        else if status_code r =? 404 then (Return (PBool false), w1)
        else if decide (400 ≤ status_code r < 600)
             then reported (line (HTTPError (status_code r))) (HTTPError (status_code r)) w1
             else (Return PNone, w1)
    end.
Proof.
  unfold Database.exists_, reported. py_unfold.
  destruct (server _ _) as [r|detail]; cbn; [|done].
  destruct (status_code r =? 200); [done|].
  destruct (status_code r =? 404); [done|].
  destruct (decide _) as [Herr|Hok].
  - by rewrite raise_for_status_error.
  - by rewrite raise_for_status_pass.
Qed.

Lemma create_eq (self : Database.t) (w : World) :
  Database.create self w =
    match Database.exists_ self w with
    | (Raise e, w1) => (Raise e, w1)
    | (Return existing, w1) =>
        if truthy existing then (Return (PBool false), w1)
        else
          let req := mkRequest PUT
                       (Database.couchdb_url self +:+ "/" +:+ Database.db_name self)
                       None (Database.auth_of self) (Database.ca_cert_path self) in
          let w2 := {| sent := sent w1 ++ [req]; stdout := stdout w1 |} in
          let line e := "Error creating database '" +:+ Database.db_name self
                        +:+ "': " +:+ exn_str e in
          match server (sent w1) req with
          | Failed detail => reported (line (TransportError detail)) (TransportError detail) w2
          | Responded r =>
              if decide (400 ≤ status_code r < 600)
              then reported (line (HTTPError (status_code r))) (HTTPError (status_code r)) w2
              else (Return (PBool true),
                    {| sent := sent w2;
                       stdout := stdout w2 ++
                         ["Database '" +:+ Database.db_name self +:+ "' created successfully."] |})
          end
    end.
Proof.
  unfold Database.create, reported. py_unfold.
  destruct (Database.exists_ self w) as [[existing|e] w1]; [|done].
  destruct (truthy existing); [done|].
  destruct (server _ _) as [r|detail]; cbn; [|done].
  destruct (decide _) as [Herr|Hok].
  - by rewrite raise_for_status_error.
  - by rewrite raise_for_status_pass.
Qed.

Lemma find_eq (self : Database.t) (selector columns sort descending limit : pyval)
    (w : World) :
  Database.find self selector columns sort descending limit w =
    let req := mkRequest POST
                 (Database.couchdb_url self +:+ "/" +:+ Database.db_name self +:+ "/_find")
                 (Some (PDict (Database.find_payload selector columns sort descending limit)))
                 (Database.auth_of self) (Database.ca_cert_path self) in
    let w1 := {| sent := sent w ++ [req]; stdout := stdout w |} in
    let line e := "Error fetching data from CouchDB: " +:+ exn_str e in
    match server (sent w) req with
    | Failed detail => reported (line (TransportError detail)) (TransportError detail) w1
    | Responded r =>
        if decide (400 ≤ status_code r < 600)
        then reported (line (HTTPError (status_code r))) (HTTPError (status_code r)) w1
        else match body r with
             | None => reported (line JSONDecodeError) JSONDecodeError w1
             | Some (PDict data) =>
                 (Return (match data !! "docs" with Some docs => docs | None => PList [] end), w1)
             | Some _ => (Raise AttributeError, w1)
             end
    end.
Proof.
  unfold Database.find, reported. py_unfold.
  destruct (server _ _) as [r|detail]; cbn; [|done].
  destruct (decide _) as [Herr|Hok].
  - by rewrite raise_for_status_error.
  - rewrite raise_for_status_pass; [|done].
    destruct (body r) as [[]|]; done.
Qed.

Lemma insert_many_eq (self : Database.t) (records : pyval) (w : World) :
  Database.insert_many self records w =
    let req := mkRequest POST
                 (Database.couchdb_url self +:+ "/" +:+ Database.db_name self +:+ "/_bulk_docs")
                 (Some (PDict {[ "docs" := records ]}))
                 (Database.auth_of self) (Database.ca_cert_path self) in
    let w1 := {| sent := sent w ++ [req]; stdout := stdout w |} in
    let line e := "Error inserting records into CouchDB: " +:+ exn_str e in
    match server (sent w) req with
    | Failed detail => reported (line (TransportError detail)) (TransportError detail) w1
    | Responded r =>
        if decide (400 ≤ status_code r < 600)
        then reported (line (HTTPError (status_code r))) (HTTPError (status_code r)) w1
        else match body r with
             | None => reported (line JSONDecodeError) JSONDecodeError w1
             | Some v => (Return v, w1)
             end
    end.
Proof.
  unfold Database.insert_many, reported. py_unfold.
  destruct (server _ _) as [r|detail]; cbn; [|done].
  destruct (decide _) as [Herr|Hok].
  - by rewrite raise_for_status_error.
  - rewrite raise_for_status_pass; [|done].
    destruct (body r); done.
Qed.

Lemma insert_one_eq (self : Database.t) (document : pyval) (w : World) :
  Database.insert_one self document w =
    let req := mkRequest POST
                 (Database.couchdb_url self +:+ "/" +:+ Database.db_name self)
                 (json_body document)
                 (Database.auth_of self) (Database.ca_cert_path self) in
    let w1 := {| sent := sent w ++ [req]; stdout := stdout w |} in
    let line e := "Error inserting document into CouchDB: " +:+ exn_str e in
    match server (sent w) req with
    | Failed detail => reported (line (TransportError detail)) (TransportError detail) w1
    | Responded r =>
        if decide (400 ≤ status_code r < 600)
        then reported (line (HTTPError (status_code r))) (HTTPError (status_code r)) w1
        else match body r with
             | None => reported (line JSONDecodeError) JSONDecodeError w1
             | Some v => (Return v, w1)
             end
    end.
Proof.
  unfold Database.insert_one, reported. py_unfold.
  destruct (server _ _) as [r|detail]; cbn; [|done].
  destruct (decide _) as [Herr|Hok].
  - by rewrite raise_for_status_error.
  - rewrite raise_for_status_pass; [|done].
    destruct (body r); done.
Qed.

Lemma databases_eq (self : Client.t) (w : World) :
  Client.databases (self, w) =
    if truthy (Client._databases self) then (Return (Client._databases self), (self, w))
    else
      let req := mkRequest GET (Client.couchdb_url self +:+ "/_all_dbs") None
                   (Client.auth_of self) (Client.ca_cert_path self) in
      let w1 := {| sent := sent w ++ [req]; stdout := stdout w |} in
      let failed e : outcome pyval * (Client.t * World) :=
        (Raise e,
         (self, {| sent := sent w1;
                   stdout := stdout w1 ++ ["Error fetching databases: " +:+ exn_str e] |})) in
      match server (sent w) req with
      | Failed detail => failed (TransportError detail)
      | Responded r =>
          if decide (400 ≤ status_code r < 600) then failed (HTTPError (status_code r))
          else match body r with
               | None => failed JSONDecodeError
               | Some names => (Return names, (remembering self names, w1))
               end
      end.
Proof.
  unfold Client.databases, Client.get_self, Client.set_databases, Client.in_world,
    remembering.
  py_unfold.
  destruct (truthy (Client._databases self)); [done|].
  destruct (server _ _) as [r|detail]; cbn; [|done].
  destruct (decide _) as [Herr|Hok].
  - by rewrite raise_for_status_error.
  - rewrite raise_for_status_pass; [|done].
    destruct (body r); done.
Qed.

End replies.

(** ** Database.exists *)

Section exists_facts.
Context `{Env}.

Lemma exists_sends_head (self : Database.t) (w : World) :
  sent (Database.exists_ self w).2 =
    sent w ++ [mkRequest HEAD
                 (Database.couchdb_url self +:+ "/" +:+ Database.db_name self)
                 None (Database.auth_of self) (Database.ca_cert_path self)].
Proof.
  rewrite exists_eq. cbn zeta. unfold reported.
  destruct (server _ _) as [r|detail]; [|done].
  repeat case_match; done.
Qed.

Lemma exists_status_200 (self : Database.t) (w : World) (r : Response) :
  server (sent w)
    (mkRequest HEAD (Database.couchdb_url self +:+ "/" +:+ Database.db_name self)
       None (Database.auth_of self) (Database.ca_cert_path self)) = Responded r →
  status_code r = 200 →
  (Database.exists_ self w).1 = Return (PBool true).
Proof. intros Hr Hs. rewrite exists_eq. cbn zeta. rewrite Hr, Hs. done. Qed.

Lemma exists_status_404 (self : Database.t) (w : World) (r : Response) :
  server (sent w)
    (mkRequest HEAD (Database.couchdb_url self +:+ "/" +:+ Database.db_name self)
       None (Database.auth_of self) (Database.ca_cert_path self)) = Responded r →
  status_code r = 404 →
  (Database.exists_ self w).1 = Return (PBool false).
Proof. intros Hr Hs. rewrite exists_eq. cbn zeta. rewrite Hr, Hs. done. Qed.

Lemma exists_status_error (self : Database.t) (w : World) (r : Response) :
  server (sent w)
    (mkRequest HEAD (Database.couchdb_url self +:+ "/" +:+ Database.db_name self)
       None (Database.auth_of self) (Database.ca_cert_path self)) = Responded r →
  400 ≤ status_code r < 600 →
  status_code r ≠ 404 →
  (Database.exists_ self w).1 = Raise (HTTPError (status_code r)).
Proof.
  intros Hr Hs Hne. rewrite exists_eq. cbn zeta. rewrite Hr.
  destruct (Z.eqb_spec (status_code r) 200); [lia|].
  destruct (Z.eqb_spec (status_code r) 404); [lia|].
  destruct (decide _); [done|lia].
Qed.

(** The remaining statuses: nothing is raised and nothing is returned. *)
Lemma exists_status_other (self : Database.t) (w : World) (r : Response) :
  server (sent w)
    (mkRequest HEAD (Database.couchdb_url self +:+ "/" +:+ Database.db_name self)
       None (Database.auth_of self) (Database.ca_cert_path self)) = Responded r →
  status_code r ≠ 200 →
  ¬ (400 ≤ status_code r < 600) →
  (Database.exists_ self w).1 = Return PNone.
Proof.
  intros Hr Hs Hne. rewrite exists_eq. cbn zeta. rewrite Hr.
  destruct (Z.eqb_spec (status_code r) 200); [lia|].
  destruct (Z.eqb_spec (status_code r) 404); [lia|].
  destruct (decide _); [lia|done].
Qed.

End exists_facts.

(** C1.  [exists()] returns True on status 200 and False on 404
    ([exists_status_200], [exists_status_404]) and raises on 4xx and 5xx
    ([exists_status_error]); the claim that every other status raises fails:
    when the HEAD request is answered with 301, [raise_for_status] raises
    nothing and [exists()] returns None, whatever the object and the
    world. *)
Theorem exists_status_301_returns_None (self : Database.t) (w : World) :
  (@Database.exists_ (answering 301 None) self w).1 = Return PNone.
Proof.
  apply (@exists_status_other (answering 301 None) self w (mkResponse 301 None)).
  - reflexivity.
  - cbn. lia.
  - cbn. lia.
Qed.

(** ** Database.create *)

(** C3, as amended.  When [exists()] returns True, [create()] returns
    False in the world [exists()] left, in which the HEAD request is the
    only new one.  When [exists()] returns False, [create()] sends
    PUT {endpoint}/{name}; it returns True when the answer's status lies
    outside 400..599 (so on every 2xx), raises [HTTPError] when the status
    lies in 400..599, and raises the transport's exception when no answer
    arrives. *)
Theorem create_after_exists `{Env} (self : Database.t) (w w1 : World) (existing : bool) :
  Database.exists_ self w = (Return (PBool existing), w1) →
  let target := Database.couchdb_url self +:+ "/" +:+ Database.db_name self in
  let head := mkRequest HEAD target None (Database.auth_of self) (Database.ca_cert_path self) in
  let put := mkRequest PUT target None (Database.auth_of self) (Database.ca_cert_path self) in
  if existing then
    Database.create self w = (Return (PBool false), w1)
    ∧ sent w1 = sent w ++ [head]
  else
    sent (Database.create self w).2 = sent w ++ [head; put]
    ∧ (∀ r, server (sent w1) put = Responded r →
            ¬ (400 ≤ status_code r < 600) →
            (Database.create self w).1 = Return (PBool true))
    ∧ (∀ r, server (sent w1) put = Responded r →
            400 ≤ status_code r < 600 →
            (Database.create self w).1 = Raise (HTTPError (status_code r)))
    ∧ (∀ detail, server (sent w1) put = Failed detail →
            (Database.create self w).1 = Raise (TransportError detail)).
Proof.
  intros Hex target head put.
  assert (sent w1 = sent w ++ [head]) as Hsent.
  { pose proof (exists_sends_head self w) as Hs. by rewrite Hex in Hs. }
  rewrite create_eq, Hex. destruct existing; cbn [truthy].
  - done.
  - cbn zeta. fold target. fold put. unfold reported. repeat split.
    + destruct (server (sent w1) put) as [r|detail]; [destruct (decide _)|];
        cbn; rewrite Hsent, <- app_assoc; done.
    + intros r -> Hok. destruct (decide _); done.
    + intros r -> Herr. destruct (decide _); done.
    + intros detail ->. done.
Qed.

(** The two branches at work: a server that has the database, and one
    that lacks it and accepts the PUT with 201. *)
Lemma create_after_exists_witness :
  (@Database.create (answering 200 None) example_db fresh).1 = Return (PBool false)
  ∧ (@Database.create
       (by_method (Responded (mkResponse 404 None)) (Responded (mkResponse 201 None))
          (Failed "unused") (Failed "unused"))
       example_db fresh).1 = Return (PBool true).
Proof.
  split.
  - pose proof (@create_after_exists (answering 200 None) example_db fresh
                  (@Database.exists_ (answering 200 None) example_db fresh).2
                  true eq_refl) as [Hcreate _].
    rewrite Hcreate. reflexivity.
  - set (E := by_method (Responded (mkResponse 404 None)) (Responded (mkResponse 201 None))
                (Failed "unused") (Failed "unused")).
    pose proof (@create_after_exists E example_db fresh
                  (@Database.exists_ E example_db fresh).2
                  false eq_refl) as (_ & Hok & _).
    apply (Hok (mkResponse 201 None)).
    + reflexivity.
    + cbn. lia.
Defined.

(** C3 as stated fails on a PUT answered outside 2xx and outside 4xx/5xx:
    the database is absent (HEAD answered 404), the PUT is answered 304,
    and [create()] returns True instead of raising. *)
Lemma create_returns_True_on_304 :
  let E := by_method (Responded (mkResponse 404 None)) (Responded (mkResponse 304 None))
             (Failed "unused") (Failed "unused") in
  let put := mkRequest PUT "http://localhost:5984/futon" None
               (Some (Some "admin", Some "secret")) None in
  let after_exists := @Database.exists_ E example_db fresh in
  after_exists.1 = Return (PBool false)
  ∧ @server E (sent after_exists.2) put = Responded (mkResponse 304 None)
  ∧ (304 <? 200) || (300 <=? 304) = true
  ∧ @Database.create E example_db fresh =
      (Return (PBool true),
       {| sent := [mkRequest HEAD "http://localhost:5984/futon" None
                     (Some (Some "admin", Some "secret")) None;
                   put];
          stdout := ["Database 'futon' created successfully."] |}).
Proof. repeat split. Qed.

(** ** Database.find *)

Lemma find_payload_default :
  Database.find_payload PNone PNone PNone (PBool false) PNone = {[ "selector" := PDict ∅ ]}.
Proof. reflexivity. Qed.

(** C5.  [find()] with no arguments posts exactly {"selector": {}} to
    {endpoint}/{name}/_find; on a 2xx answer whose JSON body is an object,
    it returns the value under "docs" as it is, and the empty list when
    the object has no "docs" key. *)
Theorem find_default_request_and_docs `{Env} (self : Database.t) (w : World) :
  let req := mkRequest POST
               (Database.couchdb_url self +:+ "/" +:+ Database.db_name self +:+ "/_find")
               (Some (PDict {[ "selector" := PDict ∅ ]}))
               (Database.auth_of self) (Database.ca_cert_path self) in
  sent (Database.find_default self w).2 = sent w ++ [req]
  ∧ ∀ (r : Response) (data : gmap string pyval),
      server (sent w) req = Responded r →
      200 ≤ status_code r < 300 →
      body r = Some (PDict data) →
      (∀ docs, data !! "docs" = Some docs →
               (Database.find_default self w).1 = Return docs)
      ∧ (data !! "docs" = None →
               (Database.find_default self w).1 = Return (PList [])).
Proof.
  intros req. unfold Database.find_default.
  rewrite find_eq, find_payload_default. cbn zeta. fold req. unfold reported.
  split.
  - destruct (server (sent w) req) as [r|detail]; [|done].
    destruct (decide _); [done|]. destruct (body r) as [[]|]; done.
  - intros r data -> Hstatus ->.
    destruct (decide _) as [Herr|_]; [lia|].
    split; [intros docs ->|intros ->]; done.
Qed.

(** A 200 answer carrying two documents, and one carrying no "docs". *)
Lemma find_default_request_and_docs_witness :
  (@Database.find_default
     (answering 200 (Some (PDict {[ "docs" := PList [PDict {[ "a" := PInt 1 ]}; PDict ∅] ]})))
     example_db fresh).1
    = Return (PList [PDict {[ "a" := PInt 1 ]}; PDict ∅])
  ∧ (@Database.find_default
       (answering 200 (Some (PDict {[ "bookmark" := PStr "nil" ]})))
       example_db fresh).1
    = Return (PList []).
Proof.
  split.
  - set (data := {[ "docs" := PList [PDict {[ "a" := PInt 1 ]}; PDict ∅] ]} : gmap string pyval).
    destruct (@find_default_request_and_docs (answering 200 (Some (PDict data)))
                example_db fresh) as [_ Hdocs].
    destruct (Hdocs (mkResponse 200 (Some (PDict data))) data) as [Hsome _].
    + reflexivity.
    + cbn. lia.
    + reflexivity.
    + apply Hsome. reflexivity.
  - set (data := {[ "bookmark" := PStr "nil" ]} : gmap string pyval).
    destruct (@find_default_request_and_docs (answering 200 (Some (PDict data)))
                example_db fresh) as [_ Hdocs].
    destruct (Hdocs (mkResponse 200 (Some (PDict data))) data) as [_ Hnone].
    + reflexivity.
    + cbn. lia.
    + reflexivity.
    + apply Hnone. reflexivity.
Defined.

(** What [find] posts, whatever comes back. *)
Lemma find_sends `{Env} (self : Database.t) (selector columns sort descending limit : pyval)
    (w : World) :
  sent (Database.find self selector columns sort descending limit w).2 =
    sent w ++ [mkRequest POST
                 (Database.couchdb_url self +:+ "/" +:+ Database.db_name self +:+ "/_find")
                 (Some (PDict (Database.find_payload selector columns sort descending limit)))
                 (Database.auth_of self) (Database.ca_cert_path self)].
Proof.
  rewrite find_eq. cbn zeta. unfold reported.
  destruct (server _ _) as [r|detail]; [|done].
  destruct (decide _); [done|]. destruct (body r) as [[]|]; done.
Qed.

Lemma find_last_json `{Env} (self : Database.t) (selector columns sort descending limit : pyval)
    (w : World) :
  last_json (Database.find self selector columns sort descending limit w).2 =
    Some (PDict (Database.find_payload selector columns sort descending limit)).
Proof. unfold last_json. rewrite find_sends, last_snoc. done. Qed.

Lemma find_payload_sort_str (selector columns descending limit : pyval) (field : string) :
  field ≠ "" →
  Database.find_payload selector columns (PStr field) descending limit !! "sort" =
    Some (PList [PDict {[ field := PStr (if truthy descending then "desc" else "asc") ]}]).
Proof.
  intros Hne. unfold Database.find_payload. cbn [truthy].
  apply String.eqb_neq in Hne. rewrite Hne. cbn [negb].
  destruct (truthy limit), (truthy columns); by simplify_map_eq.
Qed.

Lemma find_payload_sort_list (selector columns descending limit : pyval) (l : list pyval) :
  l ≠ [] →
  Database.find_payload selector columns (PList l) descending limit !! "sort" =
    Some (PList l).
Proof.
  intros Hne. unfold Database.find_payload. cbn [truthy].
  destruct l as [|x l]; [done|].
  destruct (truthy limit), (truthy columns); by simplify_map_eq.
Qed.

Lemma find_payload_no_sort (selector columns sort descending limit : pyval) :
  (truthy sort = false ∨ (isinstance_str sort = false ∧ isinstance_list sort = false)) →
  Database.find_payload selector columns sort descending limit !! "sort" = None.
Proof.
  intros Hsort. unfold Database.find_payload.
  destruct Hsort as [->|[Hstr Hlist]].
  - destruct (truthy limit), (truthy columns); by simplify_map_eq.
  - destruct sort; try discriminate;
      destruct (truthy limit), (truthy columns);
      repeat case_match; by simplify_map_eq.
Qed.

Lemma find_payload_no_limit (selector columns sort descending limit : pyval) :
  truthy limit = false →
  Database.find_payload selector columns sort descending limit !! "limit" = None.
Proof.
  intros Hlimit. unfold Database.find_payload. rewrite Hlimit.
  destruct (truthy columns), (truthy sort); repeat case_match; by simplify_map_eq.
Qed.

Lemma find_payload_no_fields (selector columns sort descending limit : pyval) :
  truthy columns = false →
  Database.find_payload selector columns sort descending limit !! "fields" = None.
Proof.
  intros Hcolumns. unfold Database.find_payload. rewrite Hcolumns.
  destruct (truthy limit), (truthy sort); repeat case_match; by simplify_map_eq.
Qed.

(** C4, as amended.  With a non-empty string as [sort], the posted
    payload has under "sort" the one-element list [{sort: "desc"}] when
    [descending] is true and [{sort: "asc"}] when it is not; with a
    non-empty list as [sort], it has that list; and with any list as
    [sort], the posted body does not depend on [descending]. *)
Theorem find_sort_payload `{Env} (self : Database.t)
    (selector columns descending limit : pyval) (w : World) :
  (∀ field : string, field ≠ "" →
     ∃ payload : gmap string pyval,
       last_json (Database.find self selector columns (PStr field) descending limit w).2
         = Some (PDict payload)
       ∧ payload !! "sort" =
           Some (PList [PDict {[ field := PStr (if truthy descending then "desc" else "asc") ]}]))
  ∧ (∀ l : list pyval, l ≠ [] →
     ∃ payload : gmap string pyval,
       last_json (Database.find self selector columns (PList l) descending limit w).2
         = Some (PDict payload)
       ∧ payload !! "sort" = Some (PList l))
  ∧ (∀ (l : list pyval) (other : pyval),
       last_json (Database.find self selector columns (PList l) descending limit w).2
       = last_json (Database.find self selector columns (PList l) other limit w).2).
Proof.
  split; [|split].
  - intros field Hne. eexists. split; [apply find_last_json|].
    by apply find_payload_sort_str.
  - intros l Hne. eexists. split; [apply find_last_json|].
    by apply find_payload_sort_list.
  - intros l other. rewrite !find_last_json. done.
Qed.

(** The case of the specification: sort="age", descending=True. *)
Lemma find_sort_payload_witness :
  (∃ payload : gmap string pyval,
     last_json (@Database.find (answering 200 (Some (PDict ∅))) example_db
                  PNone PNone (PStr "age") (PBool true) PNone fresh).2
       = Some (PDict payload)
     ∧ payload !! "sort" = Some (PList [PDict {[ "age" := PStr "desc" ]}]))
  ∧ (∃ payload : gmap string pyval,
     last_json (@Database.find (answering 200 (Some (PDict ∅))) example_db
                  PNone PNone (PList [PDict {[ "age" := PStr "asc" ]}]) (PBool true) PNone
                  fresh).2
       = Some (PDict payload)
     ∧ payload !! "sort" = Some (PList [PDict {[ "age" := PStr "asc" ]}])).
Proof.
  destruct (@find_sort_payload (answering 200 (Some (PDict ∅))) example_db
              PNone PNone (PBool true) PNone fresh) as (Hstr & Hlist & _).
  split.
  - apply (Hstr "age"). discriminate.
  - apply (Hlist [PDict {[ "age" := PStr "asc" ]}]). discriminate.
Defined.

(** C4 as stated fails on the empty string and on the empty list: both
    are false for [if sort:], and the posted payload is {"selector": {}}
    with no "sort" key. *)
Lemma find_drops_empty_sort :
  last_json (@Database.find (answering 200 (Some (PDict ∅))) example_db
               PNone PNone (PStr "") (PBool true) PNone fresh).2
    = Some (PDict {[ "selector" := PDict ∅ ]})
  ∧ last_json (@Database.find (answering 200 (Some (PDict ∅))) example_db
                 PNone PNone (PList []) (PBool true) PNone fresh).2
    = Some (PDict {[ "selector" := PDict ∅ ]})
  ∧ ({[ "selector" := PDict ∅ ]} : gmap string pyval) !! "sort" = None.
Proof. repeat split; rewrite ?find_last_json; reflexivity. Qed.

(** C10.  The payload [find] posts has no "limit" key when [limit] is
    None or 0, no "fields" key when [columns] is None or an empty list,
    and no "sort" key when [sort] is truthy but neither a string nor a
    list; the request is made all the same. *)
Theorem find_drops_falsy_arguments `{Env} (self : Database.t)
    (selector columns sort descending limit : pyval) (w : World) :
  ∃ payload : gmap string pyval,
    last_json (Database.find self selector columns sort descending limit w).2
      = Some (PDict payload)
    ∧ (limit = PNone ∨ limit = PInt 0 → payload !! "limit" = None)
    ∧ (columns = PNone ∨ columns = PList [] → payload !! "fields" = None)
    ∧ (truthy sort = true → isinstance_str sort = false → isinstance_list sort = false →
       payload !! "sort" = None).
Proof.
  eexists. split; [apply find_last_json|]. repeat split.
  - intros [-> | ->]; by apply find_payload_no_limit.
  - intros [-> | ->]; by apply find_payload_no_fields.
  - intros _ Hstr Hlist. apply find_payload_no_sort. by right.
Qed.

(** limit=0, columns=[] and sort=7 all vanish from the payload. *)
Lemma find_drops_falsy_arguments_witness :
  ∃ payload : gmap string pyval,
    last_json (@Database.find (answering 200 (Some (PDict ∅))) example_db
                 PNone (PList []) (PInt 7) (PBool false) (PInt 0) fresh).2
      = Some (PDict payload)
    ∧ payload !! "limit" = None
    ∧ payload !! "fields" = None
    ∧ payload !! "sort" = None.
Proof.
  destruct (@find_drops_falsy_arguments (answering 200 (Some (PDict ∅))) example_db
              PNone (PList []) (PInt 7) (PBool false) (PInt 0) fresh)
    as (payload & Hsent & Hlimit & Hfields & Hsort).
  exists payload. repeat split.
  - exact Hsent.
  - apply Hlimit. by right.
  - apply Hfields. by right.
  - by apply Hsort.
Defined.

(** ** Database.insert_many and Database.insert_one *)

Lemma insert_many_sends `{Env} (self : Database.t) (records : pyval) (w : World) :
  sent (Database.insert_many self records w).2 =
    sent w ++ [mkRequest POST
                 (Database.couchdb_url self +:+ "/" +:+ Database.db_name self +:+ "/_bulk_docs")
                 (Some (PDict {[ "docs" := records ]}))
                 (Database.auth_of self) (Database.ca_cert_path self)].
Proof.
  rewrite insert_many_eq. cbn zeta. unfold reported.
  destruct (server _ _) as [r|detail]; [|done].
  destruct (decide _); [done|]. destruct (body r); done.
Qed.

Lemma insert_one_sends `{Env} (self : Database.t) (document : pyval) (w : World) :
  sent (Database.insert_one self document w).2 =
    sent w ++ [mkRequest POST
                 (Database.couchdb_url self +:+ "/" +:+ Database.db_name self)
                 (json_body document)
                 (Database.auth_of self) (Database.ca_cert_path self)].
Proof.
  rewrite insert_one_eq. cbn zeta. unfold reported.
  destruct (server _ _) as [r|detail]; [|done].
  destruct (decide _); [done|]. destruct (body r); done.
Qed.

(** C9, as amended.  [insert_many(records)] posts {"docs": records} to
    {endpoint}/{name}/_bulk_docs; a 2xx answer with a JSON body is
    returned as decoded, whatever it reports about single documents; and
    the call raises only because the transport failed, because the
    status is not 2xx, or because the body of the answer is not JSON. *)
Theorem insert_many_request_and_result `{Env} (self : Database.t) (records : pyval)
    (w : World) :
  let req := mkRequest POST
               (Database.couchdb_url self +:+ "/" +:+ Database.db_name self +:+ "/_bulk_docs")
               (Some (PDict {[ "docs" := records ]}))
               (Database.auth_of self) (Database.ca_cert_path self) in
  sent (Database.insert_many self records w).2 = sent w ++ [req]
  ∧ (∀ (r : Response) (answer : pyval),
       server (sent w) req = Responded r →
       200 ≤ status_code r < 300 →
       body r = Some answer →
       (Database.insert_many self records w).1 = Return answer)
  ∧ (∀ e : exn,
       (Database.insert_many self records w).1 = Raise e →
       (∃ detail, server (sent w) req = Failed detail ∧ e = TransportError detail)
       ∨ (∃ r, server (sent w) req = Responded r
               ∧ ¬ (200 ≤ status_code r < 300)
               ∧ e = HTTPError (status_code r))
       ∨ (∃ r, server (sent w) req = Responded r
               ∧ body r = None
               ∧ e = JSONDecodeError)).
Proof.
  intros req. split; [apply insert_many_sends|].
  rewrite insert_many_eq. cbn zeta. fold req. unfold reported.
  split.
  - intros r answer -> Hstatus ->. destruct (decide _) as [Herr|_]; [lia|done].
  - intros e Hraise.
    destruct (server (sent w) req) as [r|detail].
    + right. destruct (decide _) as [Herr|Hok].
      * left. exists r. injection Hraise as <-. repeat split; [lia].
      * right. exists r. destruct (body r); [discriminate|].
        injection Hraise as <-. done.
    + left. exists detail. injection Hraise as <-. done.
Qed.

(** Per-document refusals inside a 201 answer come back as data; a 500
    answer is the status failure of the last part. *)
Lemma insert_many_request_and_result_witness :
  (@Database.insert_many (answering 201 (Some example_bulk_answer))
     example_db example_records fresh).1 = Return example_bulk_answer
  ∧ ((∃ detail,
        @server (answering 500 (Some PNone)) []
          (mkRequest POST "http://localhost:5984/futon/_bulk_docs"
             (Some (PDict {[ "docs" := example_records ]}))
             (Some (Some "admin", Some "secret")) None) = Failed detail
        ∧ HTTPError 500 = TransportError detail)
     ∨ (∃ r,
        @server (answering 500 (Some PNone)) []
          (mkRequest POST "http://localhost:5984/futon/_bulk_docs"
             (Some (PDict {[ "docs" := example_records ]}))
             (Some (Some "admin", Some "secret")) None) = Responded r
        ∧ ¬ (200 ≤ status_code r < 300)
        ∧ HTTPError 500 = HTTPError (status_code r))
     ∨ (∃ r,
        @server (answering 500 (Some PNone)) []
          (mkRequest POST "http://localhost:5984/futon/_bulk_docs"
             (Some (PDict {[ "docs" := example_records ]}))
             (Some (Some "admin", Some "secret")) None) = Responded r
        ∧ body r = None
        ∧ HTTPError 500 = JSONDecodeError)).
Proof.
  split.
  - destruct (@insert_many_request_and_result (answering 201 (Some example_bulk_answer))
                example_db example_records fresh) as (_ & Hok & _).
    apply (Hok (mkResponse 201 (Some example_bulk_answer))).
    + reflexivity.
    + cbn. lia.
    + reflexivity.
  - destruct (@insert_many_request_and_result (answering 500 (Some PNone))
                example_db example_records fresh) as (_ & _ & Hraise).
    apply (Hraise (HTTPError 500)). reflexivity.
Defined.

(** C9 as stated fails on a 2xx answer whose body is not JSON: the
    transport delivered the answer, its status is 200, and [insert_many]
    raises [JSONDecodeError], a [RequestException], after printing its
    error line. *)
Lemma insert_many_raises_on_200_without_json :
  let E := answering 200 None in
  let req := mkRequest POST "http://localhost:5984/futon/_bulk_docs"
               (Some (PDict {[ "docs" := example_records ]}))
               (Some (Some "admin", Some "secret")) None in
  @server E [] req = Responded (mkResponse 200 None)
  ∧ (200 <=? 200) && (200 <? 300) = true
  ∧ is_RequestException JSONDecodeError = true
  ∧ @Database.insert_many E example_db example_records fresh =
      (Raise JSONDecodeError,
       {| sent := [req];
          stdout := ["Error inserting records into CouchDB: JSONDecodeError"] |}).
Proof. cbn zeta. repeat split; reflexivity. Qed.

(** ** Client.databases *)

(** After a successful access the attribute holds what was returned. *)
Lemma databases_success_stored `{Env} (self self' : Client.t) (w w' : World) (names : pyval) :
  Client.databases (self, w) = (Return names, (self', w')) →
  Client._databases self' = names.
Proof.
  rewrite databases_eq. destruct (truthy (Client._databases self)).
  - by intros [= <- <- _].
  - cbn zeta. destruct (server _ _) as [r|detail]; [|done].
    destruct (decide _); [done|]. destruct (body r); [|done].
    by intros [= <- <- _].
Qed.

(** C2, as amended.  After a successful access that returned a truthy
    value (a non-empty list of names), every later access on the same
    object returns that value and changes neither the object nor the
    world: no request is made, however many accesses follow. *)
Theorem databases_memoized `{Env} (self self' : Client.t) (w w' : World) (names : pyval) :
  Client.databases (self, w) = (Return names, (self', w')) →
  truthy names = true →
  (∀ later : World,
     Client.databases (self', later) = (Return names, (self', later)))
  ∧ (∀ n : nat, access_again n (self', w') = (self', w')).
Proof.
  intros Hfirst Htruthy.
  apply databases_success_stored in Hfirst.
  assert (∀ later : World,
            Client.databases (self', later) = (Return names, (self', later))) as Hhit.
  { intros later. rewrite databases_eq, Hfirst, Htruthy. done. }
  split; [exact Hhit|].
  induction n as [|n IH]; [done|].
  cbn [access_again]. rewrite Hhit. exact IH.
Qed.

(** Against a server with two databases: the first access sends the one
    GET, and five more accesses leave the world as it is. *)
Lemma databases_memoized_witness :
  let E := answering 200 (Some (PList [PStr "_users"; PStr "futon"])) in
  let first := @Client.databases E (example_client, fresh) in
  @Client.databases E first.2 = (Return (PList [PStr "_users"; PStr "futon"]), first.2)
  ∧ sent (@access_again E 5 first.2).2 =
      [mkRequest GET "http://localhost:5984/_all_dbs" None
         (Some (Some "admin", Some "secret")) None].
Proof.
  cbn zeta.
  set (E := answering 200 (Some (PList [PStr "_users"; PStr "futon"]))).
  set (first := @Client.databases E (example_client, fresh)).
  destruct (@databases_memoized E example_client first.2.1 fresh first.2.2
              (PList [PStr "_users"; PStr "futon"]) eq_refl eq_refl) as [Hhit Hagain].
  split.
  - exact (Hhit first.2.2).
  - rewrite (surjective_pairing first.2), Hagain. reflexivity.
Defined.

(** C2 as stated fails when the server has no database: the first access
    succeeds with the empty list, which [if self._databases:] takes for
    nothing stored, and the second access sends a second GET. *)
Lemma databases_refetches_empty_list :
  let E := answering 200 (Some (PList [])) in
  let get := mkRequest GET "http://localhost:5984/_all_dbs" None
               (Some (Some "admin", Some "secret")) None in
  let first := @Client.databases E (example_client, fresh) in
  let second := @Client.databases E first.2 in
  first.1 = Return (PList [])
  ∧ sent first.2.2 = [get]
  ∧ second.1 = Return (PList [])
  ∧ sent second.2.2 = [get; get].
Proof. cbn zeta. repeat split; reflexivity. Qed.

(** C6.  When an access raises, the object is as it was before the
    access, its [_databases] included, and the next access, from any
    world, sends GET {endpoint}/_all_dbs again. *)
Theorem databases_failure_not_cached `{Env} (self self' : Client.t) (w w' : World) (e : exn) :
  Client.databases (self, w) = (Raise e, (self', w')) →
  self' = self
  ∧ Client._databases self' = Client._databases self
  ∧ ∀ later : World,
      sent (Client.databases (self', later)).2.2 =
        sent later ++ [mkRequest GET (Client.couchdb_url self +:+ "/_all_dbs") None
                         (Client.auth_of self) (Client.ca_cert_path self)].
Proof.
  rewrite databases_eq. destruct (truthy (Client._databases self)) eqn:Hcached; [done|].
  cbn zeta. intros Hraise.
  assert (self' = self) as ->.
  { revert Hraise. destruct (server _ _) as [r|detail]; [|by intros [= _ -> _]].
    destruct (decide _); [by intros [= _ -> _]|].
    destruct (body r); [intros [=]|by intros [= _ -> _]]. }
  repeat split. intros later. rewrite databases_eq, Hcached. cbn zeta.
  destruct (server (sent later) _) as [r|detail]; [|done].
  destruct (decide _); [done|]. destruct (body r); done.
Qed.

(** A server that answers 500 twice: nothing is stored, two GETs go out. *)
Lemma databases_failure_not_cached_witness :
  let E := answering 500 None in
  let get := mkRequest GET "http://localhost:5984/_all_dbs" None
               (Some (Some "admin", Some "secret")) None in
  let first := @Client.databases E (example_client, fresh) in
  first.1 = Raise (HTTPError 500)
  ∧ first.2.1 = example_client
  ∧ sent (@Client.databases E first.2).2.2 = [get; get].
Proof.
  cbn zeta.
  destruct (@databases_failure_not_cached (answering 500 None) example_client
              (@Client.databases (answering 500 None) (example_client, fresh)).2.1
              fresh
              (@Client.databases (answering 500 None) (example_client, fresh)).2.2
              (HTTPError 500) eq_refl) as (Hself & _ & Hnext).
  split; [reflexivity|]. split; [exact Hself|].
  rewrite (surjective_pairing (@Client.databases (answering 500 None) (example_client, fresh)).2).
  rewrite Hnext. reflexivity.
Defined.

(** ** Authentication *)

(** The conditional expression every method evaluates for [auth]. *)
Lemma auth_conditional_iff (username password : option string) (req : Request) :
  auth req = (if truthy_str username && truthy_str password
              then Some (username, password) else None) →
  auth_iff_credentials username password req.
Proof.
  intros Hauth. unfold auth_iff_credentials, credentials_given. rewrite Hauth.
  destruct (truthy_str username) eqn:Hu, (truthy_str password) eqn:Hp; cbn [andb].
  - apply truthy_str_true in Hu as (u & -> & Hu).
    apply truthy_str_true in Hp as (p & -> & Hp).
    split; [|by intros a [= <-]]. split; [|by eauto]. intros _. by exists u, p.
  - split; [|done]. split; [by intros [a Ha]|].
    intros (u & p & -> & -> & Hu' & Hp').
    assert (truthy_str (Some p) = true) as Hp'' by (apply truthy_str_true; eauto).
    congruence.
  - split; [|done]. split; [by intros [a Ha]|].
    intros (u & p & -> & -> & Hu' & Hp').
    assert (truthy_str (Some u) = true) as Hu'' by (apply truthy_str_true; eauto).
    congruence.
  - split; [|done]. split; [by intros [a Ha]|].
    intros (u & p & -> & -> & Hu' & Hp').
    assert (truthy_str (Some u) = true) as Hu'' by (apply truthy_str_true; eauto).
    congruence.
Qed.

Lemma create_sends `{Env} (self : Database.t) (w : World) :
  let target := Database.couchdb_url self +:+ "/" +:+ Database.db_name self in
  let head := mkRequest HEAD target None (Database.auth_of self) (Database.ca_cert_path self) in
  let put := mkRequest PUT target None (Database.auth_of self) (Database.ca_cert_path self) in
  sent (Database.create self w).2 = sent w ++ [head]
  ∨ sent (Database.create self w).2 = sent w ++ [head; put].
Proof.
  intros target head put. rewrite create_eq.
  pose proof (exists_sends_head self w) as Hhead. fold target in Hhead. fold head in Hhead.
  destruct (Database.exists_ self w) as [[existing|e] w1]; cbn in Hhead; [|by left].
  destruct (truthy existing); [by left|]. right.
  cbn zeta. fold target. fold put. unfold reported.
  destruct (server (sent w1) put) as [r|detail]; [destruct (decide _)|];
    cbn; rewrite Hhead, <- app_assoc; done.
Qed.

(** C7.  Every request made by [exists], [create], [find], [insert_one],
    [insert_many] and [databases] carries basic-auth if and only if the
    username and the password are both given and non-empty, and then it
    carries exactly that pair; otherwise it carries none. *)
Theorem requests_authenticated_iff_credentials `{Env} :
  (∀ (self : Database.t) (w : World),
     ∃ req, sent (Database.exists_ self w).2 = sent w ++ [req]
            ∧ auth_iff_credentials (Database.username self) (Database.password self) req)
  ∧ (∀ (self : Database.t) (w : World),
     ∃ reqs, sent (Database.create self w).2 = sent w ++ reqs
             ∧ reqs ≠ []
             ∧ Forall (auth_iff_credentials (Database.username self) (Database.password self))
                 reqs)
  ∧ (∀ (self : Database.t) (selector columns sort descending limit : pyval) (w : World),
     ∃ req, sent (Database.find self selector columns sort descending limit w).2
              = sent w ++ [req]
            ∧ auth_iff_credentials (Database.username self) (Database.password self) req)
  ∧ (∀ (self : Database.t) (document : pyval) (w : World),
     ∃ req, sent (Database.insert_one self document w).2 = sent w ++ [req]
            ∧ auth_iff_credentials (Database.username self) (Database.password self) req)
  ∧ (∀ (self : Database.t) (records : pyval) (w : World),
     ∃ req, sent (Database.insert_many self records w).2 = sent w ++ [req]
            ∧ auth_iff_credentials (Database.username self) (Database.password self) req)
  ∧ (∀ (self : Client.t) (w : World),
     ∃ reqs, sent (Client.databases (self, w)).2.2 = sent w ++ reqs
             ∧ length reqs = (if truthy (Client._databases self) then 0%nat else 1%nat)
             ∧ Forall (auth_iff_credentials (Client.username self) (Client.password self))
                 reqs).
Proof.
  repeat split.
  - intros self w. eexists. split; [apply exists_sends_head|].
    by apply auth_conditional_iff.
  - intros self w. destruct (create_sends self w) as [Hsent|Hsent];
      eexists; (split; [exact Hsent|]); (split; [done|]);
      repeat (apply Forall_cons_2; [by apply auth_conditional_iff|]);
      apply Forall_nil_2.
  - intros self selector columns sort descending limit w.
    eexists. split; [apply find_sends|]. by apply auth_conditional_iff.
  - intros self document w.
    eexists. split; [apply insert_one_sends|]. by apply auth_conditional_iff.
  - intros self records w.
    eexists. split; [apply insert_many_sends|]. by apply auth_conditional_iff.
  - intros self w. rewrite databases_eq.
    destruct (truthy (Client._databases self)).
    + exists []. rewrite app_nil_r. done.
    + cbn zeta. eexists [_]. split; [|split; [done|]].
      * destruct (server _ _) as [r|detail]; [|done].
        destruct (decide _); [done|]. destruct (body r); done.
      * apply Forall_cons_2; [by apply auth_conditional_iff|]. apply Forall_nil_2.
Qed.

(** ** Endpoint normalisation *)

Example rstrip_two_slashes : rstrip "/" "https://192.168.1.11:6984//" = "https://192.168.1.11:6984".
Proof. reflexivity. Qed.

Example rstrip_keeps_inner_slashes : rstrip "/" "http://host/prefix" = "http://host/prefix".
Proof. reflexivity. Qed.

Lemma rstrip_slashes (n : nat) : rstrip "/" (slashes n) = "".
Proof. induction n as [|n IH]; [done|]. cbn [slashes rstrip]. rewrite IH. done. Qed.

Lemma rstrip_cons (chars : string) (c : ascii) (s : string) :
  rstrip chars (String c s) =
    match rstrip chars s with
    | EmptyString => if char_in c chars then EmptyString else String c EmptyString
    | r => String c r
    end.
Proof. reflexivity. Qed.

Lemma rstrip_app_slashes (e : string) (n : nat) :
  rstrip "/" (e +:+ slashes n) = rstrip "/" e.
Proof.
  induction e as [|c e IH].
  - apply rstrip_slashes.
  - change (String c e +:+ slashes n) with (String c (e +:+ slashes n)).
    rewrite !rstrip_cons, IH. done.
Qed.

Lemma append_slash_not_empty (s : string) : s +:+ "/" ≠ "".
Proof. destruct s; discriminate. Qed.

Lemma rstrip_no_trailing_slash (s : string) : ¬ has_trailing_slash (rstrip "/" s).
Proof.
  unfold has_trailing_slash. induction s as [|c s IH]; intros [s' Hs']; cbn [rstrip] in Hs'.
  - symmetry in Hs'. by apply append_slash_not_empty in Hs'.
  - destruct (rstrip "/" s) as [|a r] eqn:Hr.
    + destruct (char_in c "/") eqn:Hc.
      * symmetry in Hs'. by apply append_slash_not_empty in Hs'.
      * destruct s' as [|c' s'']; cbn [String.append] in Hs'.
        -- injection Hs' as ->. cbn in Hc. discriminate.
        -- injection Hs' as _ Hrest. symmetry in Hrest.
           by apply append_slash_not_empty in Hrest.
    + destruct s' as [|c' s'']; cbn [String.append] in Hs'.
      * discriminate.
      * injection Hs' as _ Hrest. apply IH. by exists s''.
Qed.

(** C8.  An endpoint followed by any number of slashes gives the same
    Client, the same Database, and hence the same outcome and the same
    requests for every operation from every world, as the endpoint alone;
    and the endpoint an object stores never ends in a slash. *)
Theorem trailing_slashes_normalized `{Env} (e : string) (n : nat)
    (username password ca_cert_path : option string) (db_name : string) :
  let c1 := Client.__init__ (e +:+ slashes n) username password ca_cert_path in
  let c2 := Client.__init__ e username password ca_cert_path in
  let d1 := Database.__init__ (e +:+ slashes n) username password ca_cert_path db_name in
  let d2 := Database.__init__ e username password ca_cert_path db_name in
  (c1 = c2 ∧ d1 = d2 ∧ Client.__getitem__ c1 db_name = Client.__getitem__ c2 db_name)
  ∧ (Database.exists_ d1 = Database.exists_ d2
     ∧ Database.create d1 = Database.create d2
     ∧ Database.find d1 = Database.find d2
     ∧ Database.insert_one d1 = Database.insert_one d2
     ∧ Database.insert_many d1 = Database.insert_many d2
     ∧ ∀ w : World, Client.databases (c1, w) = Client.databases (c2, w))
  ∧ (¬ has_trailing_slash (Client.couchdb_url c2)
     ∧ ¬ has_trailing_slash (Database.couchdb_url d2)
     ∧ ¬ has_trailing_slash (Database.couchdb_url (Client.__getitem__ c2 db_name))).
Proof.
  intros c1 c2 d1 d2.
  assert (c1 = c2) as Hc.
  { unfold c1, c2, Client.__init__. by rewrite rstrip_app_slashes. }
  assert (d1 = d2) as Hd.
  { unfold d1, d2, Database.__init__. by rewrite rstrip_app_slashes. }
  split; [|split].
  - rewrite Hc. done.
  - rewrite Hc, Hd. done.
  - repeat split; apply rstrip_no_trailing_slash.
Qed.

(** * Further properties of the methods *)

(* stdpp's solvers clear hypotheses by name and warn when one is gone. *)
Set Warnings "-clear-no-such-hyp".

(** ** Database.exists, continued *)

(** X1.  [exists()] returns True exactly when the HEAD request was
    answered with status 200, and False exactly when it was answered with
    status 404: no other answer, and no transport failure, is ever
    reported as present or as absent. *)
Theorem exists_true_iff_200_false_iff_404 `{Env} (self : Database.t) (w : World) :
  let head := mkRequest HEAD
                (Database.couchdb_url self +:+ "/" +:+ Database.db_name self)
                None (Database.auth_of self) (Database.ca_cert_path self) in
  ((Database.exists_ self w).1 = Return (PBool true)
   ↔ ∃ r, server (sent w) head = Responded r ∧ status_code r = 200)
  ∧ ((Database.exists_ self w).1 = Return (PBool false)
     ↔ ∃ r, server (sent w) head = Responded r ∧ status_code r = 404).
Proof.
  intros head. rewrite exists_eq. cbn zeta. fold head. unfold reported.
  destruct (server (sent w) head) as [r|detail].
  - destruct (Z.eqb_spec (status_code r) 200) as [H200|H200];
      [|destruct (Z.eqb_spec (status_code r) 404) as [H404|H404];
        [|destruct (decide _)]];
      cbn; (split; (split; [intros [=]; eauto | intros (r' & [= <-] & Hs); try done; lia])).
  - cbn. split; (split; [intros [=] | by intros (r & [=] & _)]).
Qed.

(** ** Database.create, continued *)

(** The requests of one [create()], read off the answer to its HEAD. *)
Lemma create_sent_by_head `{Env} (self : Database.t) (w : World) :
  let target := Database.couchdb_url self +:+ "/" +:+ Database.db_name self in
  let head := mkRequest HEAD target None (Database.auth_of self) (Database.ca_cert_path self) in
  let put := mkRequest PUT target None (Database.auth_of self) (Database.ca_cert_path self) in
  sent (Database.create self w).2 =
    sent w ++ match server (sent w) head with
              | Failed _ => [head]
              | Responded r =>
                  if status_code r =? 200 then [head]
                  else if status_code r =? 404 then [head; put]
                  else if decide (400 ≤ status_code r < 600) then [head]
                  else [head; put]
              end.
Proof.
  intros target head put. rewrite create_eq, exists_eq. cbn zeta.
  fold target. fold head. fold put. unfold reported.
  destruct (server (sent w) head) as [r|detail]; [|done].
  destruct (status_code r =? 200); [done|].
  destruct (status_code r =? 404); [|destruct (decide _); [done|]];
    cbn; (destruct (server _ put) as [r'|detail']; [destruct (decide _)|]);
    cbn; rewrite <- app_assoc; done.
Qed.

(** X2.  [create()] sends the PUT exactly when the HEAD of its existence
    check was answered with 404 or with a status that is neither 200 nor
    in 400..599 (for which [exists()] returns None, which is falsy); in
    every other case, transport failure included, the HEAD is the only
    request. *)
Theorem create_puts_iff_head_not_200_not_error `{Env} (self : Database.t) (w : World) :
  let target := Database.couchdb_url self +:+ "/" +:+ Database.db_name self in
  let head := mkRequest HEAD target None (Database.auth_of self) (Database.ca_cert_path self) in
  let put := mkRequest PUT target None (Database.auth_of self) (Database.ca_cert_path self) in
  (sent (Database.create self w).2 = sent w ++ [head; put]
   ↔ ∃ r, server (sent w) head = Responded r
          ∧ status_code r ≠ 200
          ∧ (status_code r = 404 ∨ ¬ (400 ≤ status_code r < 600)))
  ∧ (sent (Database.create self w).2 = sent w ++ [head]
     ∨ sent (Database.create self w).2 = sent w ++ [head; put]).
Proof.
  intros target head put. split; [|apply create_sends].
  pose proof (create_sent_by_head self w) as Hsent. cbn zeta in Hsent.
  fold target in Hsent. fold head in Hsent. fold put in Hsent. rewrite Hsent.
  destruct (server (sent w) head) as [r|detail].
  - destruct (Z.eqb_spec (status_code r) 200) as [H200|H200];
      [|destruct (Z.eqb_spec (status_code r) 404) as [H404|H404];
        [|destruct (decide _) as [Herr|Hok]]].
    + split; [intros Heq; by apply app_inv_head in Heq|].
      intros (r' & [= <-] & Hne & _). done.
    + split; [|done]. intros _. exists r. eauto.
    + split; [intros Heq; by apply app_inv_head in Heq|].
      intros (r' & [= <-] & _ & [H404'|Hok]); done.
    + split; [|done]. intros _. exists r. eauto.
  - split; [intros Heq; by apply app_inv_head in Heq|].
    by intros (r & [=] & _).
Qed.


(** X13.  [create()] returns False exactly when the HEAD was answered
    with 200, and True exactly when the HEAD was answered with 404 or with
    a status that is neither 200 nor in 400..599 and the PUT that followed
    was answered with a status outside 400..599: it never reports a
    creation without a PUT that the server did not refuse. *)
Theorem create_result_iff `{Env} (self : Database.t) (w : World) :
  let target := Database.couchdb_url self +:+ "/" +:+ Database.db_name self in
  let head := mkRequest HEAD target None (Database.auth_of self) (Database.ca_cert_path self) in
  let put := mkRequest PUT target None (Database.auth_of self) (Database.ca_cert_path self) in
  ((Database.create self w).1 = Return (PBool false)
   ↔ ∃ r, server (sent w) head = Responded r ∧ status_code r = 200)
  ∧ ((Database.create self w).1 = Return (PBool true)
     ↔ (∃ r, server (sent w) head = Responded r
             ∧ status_code r ≠ 200
             ∧ (status_code r = 404 ∨ ¬ (400 ≤ status_code r < 600)))
       ∧ (∃ r', server (sent w ++ [head]) put = Responded r'
                ∧ ¬ (400 ≤ status_code r' < 600))).
Proof.
  intros target head put. rewrite create_eq, exists_eq. cbn zeta.
  fold target. fold head. fold put. unfold reported.
  destruct (server (sent w) head) as [r|detail]; [|cbn; naive_solver].
  destruct (Z.eqb_spec (status_code r) 200) as [H200|H200]; [cbn; naive_solver|].
  destruct (Z.eqb_spec (status_code r) 404) as [H404|H404];
    [|destruct (decide (400 ≤ status_code r < 600)) as [Herr|Hok];
      [cbn; naive_solver|]];
    cbn;
    (destruct (server (sent w ++ [head]) put) as [r'|detail'];
       [destruct (decide (400 ≤ status_code r' < 600))|]);
    cbn; naive_solver.
Qed.

(** ** Error reporting *)

(** X4.  [exists], [find], [insert_one] and [insert_many] print nothing
    when they return; when they raise a [RequestException] they print
    exactly one line, their own message followed by [str(e)] of the
    exception they raise; an exception of another class ([find] reading
    "docs" off a body that is no object) passes without a line. *)
Theorem failures_reported_once `{Env} (self : Database.t) (w : World) :
  let printed (result : outcome pyval * World) (message : string → string) :=
    stdout result.2 =
      stdout w ++ match result.1 with
                  | Return _ => []
                  | Raise e => if is_RequestException e then [message (exn_str e)] else []
                  end in
  printed (Database.exists_ self w)
    (λ text, "Error checking existence of database '" +:+ Database.db_name self
             +:+ "': " +:+ text)
  ∧ (∀ selector columns sort descending limit,
       printed (Database.find self selector columns sort descending limit w)
         (λ text, "Error fetching data from CouchDB: " +:+ text))
  ∧ (∀ document,
       printed (Database.insert_one self document w)
         (λ text, "Error inserting document into CouchDB: " +:+ text))
  ∧ (∀ records,
       printed (Database.insert_many self records w)
         (λ text, "Error inserting records into CouchDB: " +:+ text)).
Proof.
  cbn zeta. split; [|split; [|split]].
  - rewrite exists_eq. cbn zeta. unfold reported.
    destruct (server _ _) as [r|detail]; [|done].
    destruct (status_code r =? 200); [cbn; by rewrite app_nil_r|].
    destruct (status_code r =? 404); [cbn; by rewrite app_nil_r|].
    destruct (decide _); cbn; [done|by rewrite app_nil_r].
  - intros selector columns sort descending limit.
    rewrite find_eq. cbn zeta. unfold reported.
    destruct (server _ _) as [r|detail]; [|done].
    destruct (decide _); [done|].
    destruct (body r) as [[]|]; cbn; by rewrite ?app_nil_r.
  - intros document. rewrite insert_one_eq. cbn zeta. unfold reported.
    destruct (server _ _) as [r|detail]; [|done].
    destruct (decide _); [done|].
    destruct (body r); cbn; by rewrite ?app_nil_r.
  - intros records. rewrite insert_many_eq. cbn zeta. unfold reported.
    destruct (server _ _) as [r|detail]; [|done].
    destruct (decide _); [done|].
    destruct (body r); cbn; by rewrite ?app_nil_r.
Qed.

(** ** Database.find, continued *)

(** X5.  Whatever its arguments, [find] raises [HTTPError] on an answer
    with a status in 400..599 (404 included) and the transport's exception
    when no answer arrives; on any other status it returns the value under
    "docs" of a JSON object, the empty list when the object has no such
    key, and raises [AttributeError], printing nothing, when the JSON
    body is not an object. *)
Theorem find_result_by_reply `{Env} (self : Database.t)
    (selector columns sort descending limit : pyval) (w : World) :
  let req := mkRequest POST
               (Database.couchdb_url self +:+ "/" +:+ Database.db_name self +:+ "/_find")
               (Some (PDict (Database.find_payload selector columns sort descending limit)))
               (Database.auth_of self) (Database.ca_cert_path self) in
  let result := Database.find self selector columns sort descending limit w in
  (∀ r, server (sent w) req = Responded r →
        400 ≤ status_code r < 600 →
        result.1 = Raise (HTTPError (status_code r)))
  ∧ (∀ detail, server (sent w) req = Failed detail →
        result.1 = Raise (TransportError detail))
  ∧ (∀ r (data : gmap string pyval),
        server (sent w) req = Responded r →
        ¬ (400 ≤ status_code r < 600) →
        body r = Some (PDict data) →
        result.1 = Return (match data !! "docs" with
                           | Some docs => docs
                           | None => PList []
                           end))
  ∧ (∀ r (data : pyval),
        server (sent w) req = Responded r →
        ¬ (400 ≤ status_code r < 600) →
        body r = Some data →
        (∀ d, data ≠ PDict d) →
        result = (Raise AttributeError,
                  {| sent := sent w ++ [req]; stdout := stdout w |})).
Proof.
  intros req result. unfold result. rewrite find_eq. cbn zeta. fold req. unfold reported.
  split; [|split; [|split]].
  - intros r -> Herr. destruct (decide _); done.
  - intros detail ->. done.
  - intros r data -> Hok ->. destruct (decide _); done.
  - intros r data -> Hok -> Hdata. destruct (decide _); [done|].
    destruct data as [| | | | |d]; try done. by destruct (Hdata d).
Qed.

(** A missing database (404), and a 200 answer whose body is a list. *)
Lemma find_result_by_reply_witness :
  (@Database.find (answering 404 (Some (PDict ∅))) example_db
     PNone PNone PNone (PBool false) PNone fresh).1 = Raise (HTTPError 404)
  ∧ @Database.find (answering 200 (Some (PList []))) example_db
      PNone PNone PNone (PBool false) PNone fresh
    = (Raise AttributeError,
       {| sent := [mkRequest POST "http://localhost:5984/futon/_find"
                     (Some (PDict {[ "selector" := PDict ∅ ]}))
                     (Some (Some "admin", Some "secret")) None];
          stdout := [] |}).
Proof.
  split.
  - destruct (@find_result_by_reply (answering 404 (Some (PDict ∅))) example_db
                PNone PNone PNone (PBool false) PNone fresh) as (Herr & _).
    apply (Herr (mkResponse 404 (Some (PDict ∅)))).
    + reflexivity.
    + cbn. lia.
  - destruct (@find_result_by_reply (answering 200 (Some (PList []))) example_db
                PNone PNone PNone (PBool false) PNone fresh) as (_ & _ & _ & Hattr).
    apply (Hattr (mkResponse 200 (Some (PList []))) (PList [])).
    + reflexivity.
    + cbn. lia.
    + reflexivity.
    + discriminate.
Defined.

Lemma find_payload_selector (selector columns sort descending limit : pyval) :
  Database.find_payload selector columns sort descending limit !! "selector" =
    Some (if truthy selector then selector else PDict ∅).
Proof.
  unfold Database.find_payload.
  destruct (truthy columns), (truthy limit), (truthy sort); try destruct sort;
    by simplify_map_eq.
Qed.

Lemma find_payload_fields (selector columns sort descending limit : pyval) :
  Database.find_payload selector columns sort descending limit !! "fields" =
    (if truthy columns then Some columns else None).
Proof.
  unfold Database.find_payload.
  destruct (truthy columns), (truthy limit), (truthy sort); try destruct sort;
    by simplify_map_eq.
Qed.

Lemma find_payload_limit (selector columns sort descending limit : pyval) :
  Database.find_payload selector columns sort descending limit !! "limit" =
    (if truthy limit then Some limit else None).
Proof.
  unfold Database.find_payload.
  destruct (truthy columns), (truthy limit), (truthy sort); try destruct sort;
    by simplify_map_eq.
Qed.

Lemma find_payload_dom (selector columns sort descending limit : pyval) :
  dom (Database.find_payload selector columns sort descending limit)
    ⊆ ({[ "selector"; "fields"; "sort"; "limit" ]} : gset string).
Proof.
  intros key Hkey. apply elem_of_dom in Hkey.
  rewrite !elem_of_union, !elem_of_singleton.
  destruct (decide (key = "selector")) as [->|Hselector]; [tauto|].
  destruct (decide (key = "fields")) as [->|Hfields]; [tauto|].
  destruct (decide (key = "sort")) as [->|Hsort]; [tauto|].
  destruct (decide (key = "limit")) as [->|Hlimit]; [tauto|].
  exfalso. revert Hkey. unfold Database.find_payload.
  destruct (truthy columns), (truthy limit), (truthy sort); try destruct sort;
    rewrite ?lookup_insert_ne, lookup_singleton_ne by done; apply is_Some_None.
Qed.

(** X6.  The payload [find] posts always has "selector", holding the
    given selector when it is truthy and {} otherwise; it has "fields"
    exactly when [columns] is truthy and "limit" exactly when [limit] is
    truthy, each holding the argument as given; and it has no key besides
    "selector", "fields", "sort" and "limit". *)
Theorem find_payload_keys `{Env} (self : Database.t)
    (selector columns sort descending limit : pyval) (w : World) :
  ∃ payload : gmap string pyval,
    last_json (Database.find self selector columns sort descending limit w).2
      = Some (PDict payload)
    ∧ payload !! "selector" = Some (if truthy selector then selector else PDict ∅)
    ∧ payload !! "fields" = (if truthy columns then Some columns else None)
    ∧ payload !! "limit" = (if truthy limit then Some limit else None)
    ∧ dom payload ⊆ ({[ "selector"; "fields"; "sort"; "limit" ]} : gset string).
Proof.
  eexists. split; [apply find_last_json|].
  split; [apply find_payload_selector|].
  split; [apply find_payload_fields|].
  split; [apply find_payload_limit|].
  apply find_payload_dom.
Qed.

(** ** Database.insert_one *)

(** X7.  [insert_one(document)] posts the document itself, with no
    wrapper, to {endpoint}/{name}: the document is the JSON body, and a
    document that is None leaves the request without a body; it returns
    the decoded JSON body of an answer whose status is outside 400..599,
    raises [HTTPError] for a status in 400..599, and raises the
    transport's exception when no answer arrives. *)
Theorem insert_one_request_and_result `{Env} (self : Database.t) (document : pyval)
    (w : World) :
  let req := mkRequest POST
               (Database.couchdb_url self +:+ "/" +:+ Database.db_name self)
               (match document with PNone => None | _ => Some document end)
               (Database.auth_of self) (Database.ca_cert_path self) in
  sent (Database.insert_one self document w).2 = sent w ++ [req]
  ∧ (∀ (r : Response) (answer : pyval),
       server (sent w) req = Responded r →
       ¬ (400 ≤ status_code r < 600) →
       body r = Some answer →
       (Database.insert_one self document w).1 = Return answer)
  ∧ (∀ r : Response,
       server (sent w) req = Responded r →
       400 ≤ status_code r < 600 →
       (Database.insert_one self document w).1 = Raise (HTTPError (status_code r)))
  ∧ (∀ detail : string,
       server (sent w) req = Failed detail →
       (Database.insert_one self document w).1 = Raise (TransportError detail)).
Proof.
  intros req. split; [apply insert_one_sends|].
  rewrite insert_one_eq. cbn zeta. unfold json_body. fold req. unfold reported.
  split; [|split].
  - intros r answer -> Hok ->. destruct (decide _); done.
  - intros r -> Herr. destruct (decide _); done.
  - intros detail ->. done.
Qed.

(** A document accepted with 201, and one refused with 409. *)
Lemma insert_one_request_and_result_witness :
  (@Database.insert_one
     (answering 201 (Some (PDict {[ "ok" := PBool true; "id" := PStr "1" ]})))
     example_db (PDict {[ "a" := PInt 1 ]}) fresh).1
    = Return (PDict {[ "ok" := PBool true; "id" := PStr "1" ]})
  ∧ (@Database.insert_one (answering 409 None)
       example_db (PDict {[ "a" := PInt 1 ]}) fresh).1
    = Raise (HTTPError 409).
Proof.
  split.
  - set (answer := PDict {[ "ok" := PBool true; "id" := PStr "1" ]}).
    destruct (@insert_one_request_and_result (answering 201 (Some answer))
                example_db (PDict {[ "a" := PInt 1 ]}) fresh) as (_ & Hok & _).
    apply (Hok (mkResponse 201 (Some answer))).
    + reflexivity.
    + cbn. lia.
    + reflexivity.
  - destruct (@insert_one_request_and_result (answering 409 None)
                example_db (PDict {[ "a" := PInt 1 ]}) fresh) as (_ & _ & Herr & _).
    apply (Herr (mkResponse 409 None)).
    + reflexivity.
    + cbn. lia.
Defined.

(** ** What every request carries *)

(** X8.  Every request of every operation passes the object's
    [ca_cert_path] as [verify].  The HEAD, PUT and GET requests carry no
    JSON body; the POST of [find] and of [insert_many] always carries a
    JSON object; the POST of [insert_one] carries the document, and no
    body at all when the document is None. *)
Theorem requests_forward_ca_cert_path `{Env} :
  (∀ (self : Database.t) (w : World),
     ∃ req, sent (Database.exists_ self w).2 = sent w ++ [req]
            ∧ verify req = Database.ca_cert_path self
            ∧ json req = None)
  ∧ (∀ (self : Database.t) (w : World),
     ∃ reqs, sent (Database.create self w).2 = sent w ++ reqs
             ∧ reqs ≠ []
             ∧ Forall (λ req, verify req = Database.ca_cert_path self ∧ json req = None)
                 reqs)
  ∧ (∀ (self : Database.t) (selector columns sort descending limit : pyval) (w : World),
     ∃ req (payload : gmap string pyval),
       sent (Database.find self selector columns sort descending limit w).2
         = sent w ++ [req]
       ∧ verify req = Database.ca_cert_path self
       ∧ json req = Some (PDict payload))
  ∧ (∀ (self : Database.t) (document : pyval) (w : World),
     ∃ req, sent (Database.insert_one self document w).2 = sent w ++ [req]
            ∧ verify req = Database.ca_cert_path self
            ∧ json req = (match document with PNone => None | _ => Some document end))
  ∧ (∀ (self : Database.t) (records : pyval) (w : World),
     ∃ req (payload : gmap string pyval),
       sent (Database.insert_many self records w).2 = sent w ++ [req]
       ∧ verify req = Database.ca_cert_path self
       ∧ json req = Some (PDict payload))
  ∧ (∀ (self : Client.t) (w : World),
     ∃ reqs, sent (Client.databases (self, w)).2.2 = sent w ++ reqs
             ∧ length reqs = (if truthy (Client._databases self) then 0%nat else 1%nat)
             ∧ Forall (λ req, verify req = Client.ca_cert_path self ∧ json req = None)
                 reqs).
Proof.
  split; [|split; [|split; [|split; [|split]]]].
  - intros self w. eexists. split; [apply exists_sends_head|]. done.
  - intros self w. destruct (create_sends self w) as [Hsent|Hsent];
      eexists; (split; [exact Hsent|]); (split; [done|]);
      repeat (apply Forall_cons_2; [done|]); apply Forall_nil_2.
  - intros self selector columns sort descending limit w.
    eexists _, _. split; [apply find_sends|]. done.
  - intros self document w. eexists. split; [apply insert_one_sends|]. done.
  - intros self records w. eexists _, _. split; [apply insert_many_sends|]. done.
  - intros self w. rewrite databases_eq.
    destruct (truthy (Client._databases self)).
    + exists []. rewrite app_nil_r. done.
    + cbn zeta. eexists [_]. split; [|split; [done|]].
      * destruct (server _ _) as [r|detail]; [|done].
        destruct (decide _); [done|]. destruct (body r); done.
      * apply Forall_cons_2; [done|]. apply Forall_nil_2.
Qed.

(** ** Endpoint normalisation, continued *)

Lemma char_in_slash (c : ascii) : char_in c "/" = true → c = "/"%char.
Proof.
  cbn. destruct (Ascii.eqb c "/") eqn:Hc; [|done]. intros _. by apply Ascii.eqb_eq.
Qed.

(** Only slashes are dropped, and only at the end. *)
Lemma rstrip_decompose (s : string) : ∃ n, s = rstrip "/" s +:+ slashes n.
Proof.
  induction s as [|c s [n IH]]; [by exists 0%nat|].
  rewrite rstrip_cons. destruct (rstrip "/" s) as [|a r] eqn:Hr.
  - destruct (char_in c "/") eqn:Hc.
    + apply char_in_slash in Hc as ->. exists (S n). cbn in IH. by rewrite IH.
    + exists n. cbn in IH. by rewrite IH.
  - exists n. rewrite IH at 1. done.
Qed.

Lemma rstrip_fixed (s : string) : ¬ has_trailing_slash s → rstrip "/" s = s.
Proof.
  induction s as [|c s IH]; [done|]. intros Hs.
  assert (¬ has_trailing_slash s) as Hs'.
  { intros [s' ->]. apply Hs. by exists (String c s'). }
  rewrite rstrip_cons, (IH Hs'). destruct s as [|a r]; [|done].
  destruct (char_in c "/") eqn:Hc; [|done].
  apply char_in_slash in Hc as ->. destruct Hs. by exists "".
Qed.

Lemma rstrip_idempotent (s : string) : rstrip "/" (rstrip "/" s) = rstrip "/" s.
Proof. apply rstrip_fixed, rstrip_no_trailing_slash. Qed.

(** X9.  The endpoint a Client or a Database stores is the endpoint given
    to the constructor with some number of slashes cut off its end and
    nothing else changed; it is the given endpoint itself exactly when
    that one has no trailing slash. *)
Theorem stored_endpoint_cuts_only_slashes (e : string)
    (username password ca_cert_path : option string) (db_name : string) :
  let client := Client.__init__ e username password ca_cert_path in
  let db := Database.__init__ e username password ca_cert_path db_name in
  Database.couchdb_url db = Client.couchdb_url client
  ∧ (∃ n, e = Client.couchdb_url client +:+ slashes n)
  ∧ (Client.couchdb_url client = e ↔ ¬ has_trailing_slash e).
Proof.
  cbn. split; [done|]. split; [apply rstrip_decompose|]. split.
  - intros <-. apply rstrip_no_trailing_slash.
  - apply rstrip_fixed.
Qed.

(** X10.  Indexing a Client by a database name gives the Database that
    the constructor gives for the same endpoint, credentials and
    certificate path: normalising the endpoint a second time changes
    nothing. *)
Theorem getitem_is_database_init (e : string)
    (username password ca_cert_path : option string) (db_name : string) :
  Client.__getitem__ (Client.__init__ e username password ca_cert_path) db_name
  = Database.__init__ e username password ca_cert_path db_name.
Proof.
  unfold Client.__getitem__, Client.__init__, Database.__init__. cbn.
  by rewrite rstrip_idempotent.
Qed.

(** ** Client.databases, continued *)

(** X11.  The first access of [databases] on a newly constructed Client
    always sends GET {endpoint}/_all_dbs, with no body; when the answer's
    status is outside 400..599 and its body is JSON, that value is
    returned and stored in [_databases]; when the status is in 400..599,
    [HTTPError] is raised. *)
Theorem new_client_fetches_databases `{Env} (e : string)
    (username password ca_cert_path : option string) (w : World) :
  let self := Client.__init__ e username password ca_cert_path in
  let get := mkRequest GET (rstrip "/" e +:+ "/_all_dbs") None
               (Client.auth_of self) ca_cert_path in
  sent (Client.databases (self, w)).2.2 = sent w ++ [get]
  ∧ (∀ (r : Response) (names : pyval),
       server (sent w) get = Responded r →
       ¬ (400 ≤ status_code r < 600) →
       body r = Some names →
       Client.databases (self, w) =
         (Return names,
          (remembering self names, {| sent := sent w ++ [get]; stdout := stdout w |})))
  ∧ (∀ r : Response,
       server (sent w) get = Responded r →
       400 ≤ status_code r < 600 →
       (Client.databases (self, w)).1 = Raise (HTTPError (status_code r))).
Proof.
  intros self get. rewrite databases_eq. cbn [Client._databases self Client.__init__ truthy].
  cbn zeta. change (Client.couchdb_url self) with (rstrip "/" e).
  change (Client.ca_cert_path self) with ca_cert_path. fold get.
  split; [|split].
  - destruct (server (sent w) get) as [r|detail]; [|done].
    destruct (decide _); [done|]. destruct (body r); done.
  - intros r names -> Hok ->. destruct (decide _); done.
  - intros r -> Herr. destruct (decide _); done.
Qed.

(** A new client against a server with two databases, and against one
    that demands credentials. *)
Lemma new_client_fetches_databases_witness :
  (@Client.databases (answering 200 (Some (PList [PStr "_users"; PStr "futon"])))
     (Client.__init__ "http://localhost:5984/" None None None, fresh)).1
    = Return (PList [PStr "_users"; PStr "futon"])
  ∧ (@Client.databases (answering 401 None)
       (Client.__init__ "http://localhost:5984/" None None None, fresh)).1
    = Raise (HTTPError 401).
Proof.
  split.
  - set (names := PList [PStr "_users"; PStr "futon"]).
    destruct (@new_client_fetches_databases (answering 200 (Some names))
                "http://localhost:5984/" None None None fresh) as (_ & Hok & _).
    rewrite (Hok (mkResponse 200 (Some names)) names); [reflexivity| |cbn; lia|];
      reflexivity.
  - destruct (@new_client_fetches_databases (answering 401 None)
                "http://localhost:5984/" None None None fresh) as (_ & _ & Herr).
    apply (Herr (mkResponse 401 None)).
    + reflexivity.
    + cbn. lia.
Defined.

(** X12.  A successful access whose result is falsy (an empty list) does
    store it, yet the next access, from any world, sends
    GET {endpoint}/_all_dbs again: only a truthy value is served from
    [_databases]. *)
Theorem databases_falsy_result_fetched_again `{Env} (self self' : Client.t)
    (w w' : World) (names : pyval) :
  Client.databases (self, w) = (Return names, (self', w')) →
  truthy names = false →
  Client._databases self' = names
  ∧ ∀ later : World,
      sent (Client.databases (self', later)).2.2 =
        sent later ++ [mkRequest GET (Client.couchdb_url self' +:+ "/_all_dbs") None
                         (Client.auth_of self') (Client.ca_cert_path self')].
Proof.
  intros Hfirst Hfalsy. apply databases_success_stored in Hfirst.
  split; [done|]. intros later. rewrite databases_eq, Hfirst, Hfalsy. cbn zeta.
  destruct (server (sent later) _) as [r|detail]; [|done].
  destruct (decide _); [done|]. destruct (body r); done.
Qed.

(** A server without databases: the empty list is stored and asked for
    again. *)
Lemma databases_falsy_result_fetched_again_witness :
  let E := answering 200 (Some (PList [])) in
  let first := @Client.databases E (example_client, fresh) in
  Client._databases first.2.1 = PList []
  ∧ length (sent (@Client.databases E first.2).2.2) = 2%nat.
Proof.
  cbn zeta.
  set (E := answering 200 (Some (PList []))).
  set (first := @Client.databases E (example_client, fresh)).
  destruct (@databases_falsy_result_fetched_again E example_client first.2.1
              fresh first.2.2 (PList []) eq_refl eq_refl) as [Hstored Hnext].
  split; [exact Hstored|].
  rewrite (surjective_pairing first.2), Hnext. reflexivity.
Defined.
